(** * cb: command output clipboard manager (main.go), shallow embedding

    Go strings are byte sequences; they are modelled as [list byte].
    Go [int] values (line counts, exit codes) are modelled as [Z]. *)

From Stdlib Require Import Strings.String.
From Stdlib Require Import List ZArith Bool Lia Strings.Byte Numbers.DecimalString.
Import ListNotations.

Local Open Scope Z_scope.

Definition bytes := list byte.

(** String literals of the source, as bytes. *)
Definition s2b (s : string) : bytes := list_byte_of_string s.

Definition nl : byte := x0a.

Fixpoint bytes_eqb (a b : bytes) : bool :=
  match a, b with
  | [], [] => true
  | x :: a', y :: b' => Byte.eqb x y && bytes_eqb a' b'
  | _, _ => false
  end.

(** ** strings.Split(s, "\n") and strings.Join(lines, "\n") *)

Fixpoint splitNL (s : bytes) : list bytes :=
  match s with
  | [] => [[]]
  | c :: s' =>
      if Byte.eqb c nl then [] :: splitNL s'
      else match splitNL s' with
           | w :: ws => (c :: w) :: ws
           | [] => [[c]]
           end
  end.

Fixpoint joinNL (ls : list bytes) : bytes :=
  match ls with
  | [] => []
  | [w] => w
  | w :: ws => w ++ nl :: joinNL ws
  end.

(** Go slice expressions [lines[:n]] and [lines[n:]]. *)
Definition slice_to {A} (l : list A) (n : Z) : list A := firstn (Z.to_nat n) l.
Definition slice_from {A} (l : list A) (n : Z) : list A := skipn (Z.to_nat n) l.

Definition len {A} (l : list A) : Z := Z.of_nat (length l).

(** ** applyLineFilters *)

Definition applyLineFilters (output : bytes) (headLines tailLines : Z) : bytes :=
  if (headLines <=? 0) && (tailLines <=? 0) then output
  else
    let lines := splitNL output in
    let lines := if (0 <? headLines) && (headLines <? len lines)
                 then slice_to lines headLines else lines in
    let lines := if (0 <? tailLines) && (tailLines <? len lines)
                 then slice_from lines (len lines - tailLines) else lines in
    joinNL lines.

(** ** limitLines *)

Definition limitLines (output : bytes) (maxLines : Z) : bytes :=
  if maxLines <=? 0 then output
  else
    let lines := splitNL output in
    if len lines <=? maxLines then output
    else joinNL (slice_to lines maxLines).

(** ** stripANSI: [regexp.MustCompile(`\x1b\[[0-9;]*[a-zA-Z]`).ReplaceAllString(input, empty string)]

    [ansiMatch s] is the length of the regexp's match anchored at the start
    of [s], if any. The class [[0-9;]*] is greedy and no byte of it is a
    letter, so backtracking never finds another match: the match, when
    there is one, is unique. *)

Definition digit_or_semi (c : byte) : bool :=
  let n := Byte.to_nat c in
  ((48 <=? n) && (n <=? 57))%nat || Byte.eqb c ";"%byte.

Definition ascii_letter (c : byte) : bool :=
  let n := Byte.to_nat c in
  ((65 <=? n) && (n <=? 90))%nat || ((97 <=? n) && (n <=? 122))%nat.

Fixpoint ansiParams (s : bytes) : option nat :=
  match s with
  | [] => None
  | c :: s' =>
      if digit_or_semi c then option_map S (ansiParams s')
      else if ascii_letter c then Some 1%nat
      else None
  end.

Definition ansiMatch (s : bytes) : option nat :=
  match s with
  | c0 :: c1 :: s' =>
      if Byte.eqb c0 x1b && Byte.eqb c1 "["%byte
      then option_map (fun n => 2 + n)%nat (ansiParams s')
      else None
  | _ => None
  end.

(** ReplaceAllString scans left to right; at each position a match is
    deleted and the scan resumes after it, otherwise the byte is kept.
    [fuel] bounds the number of steps; [length input] is enough. *)
Fixpoint stripFuel (fuel : nat) (s : bytes) : bytes :=
  match fuel with
  | O => s
  | S fuel' =>
      match s with
      | [] => []
      | c :: s' =>
          match ansiMatch s with
          | Some n => stripFuel fuel' (skipn n s)
          | None => c :: stripFuel fuel' s'
          end
      end
  end.

Definition stripANSI (input : bytes) : bytes := stripFuel (length input) input.

(** ** strings.TrimSpace

    Go's [TrimSpace] removes leading and trailing runes for which
    [unicode.IsSpace] holds; its ASCII fast path computes the same as
    [TrimFunc(s, unicode.IsSpace)]. On bytes, [utf8.DecodeRuneInString]
    yields a white-space rune exactly when the string starts with that
    rune's (unique) UTF-8 encoding, and [utf8.DecodeLastRuneInString]
    exactly when the string ends with it; invalid or truncated sequences
    decode to [RuneError], which is not a space. [whiteSpaceRunes] lists
    the encodings of the runes of [unicode.IsSpace]. *)

Definition whiteSpaceRunes : list bytes :=
  [ [x09]; [x0a]; [x0b]; [x0c]; [x0d]; [x20];
    [xc2; x85]; [xc2; xa0];
    [xe1; x9a; x80];
    [xe2; x80; x80]; [xe2; x80; x81]; [xe2; x80; x82]; [xe2; x80; x83];
    [xe2; x80; x84]; [xe2; x80; x85]; [xe2; x80; x86]; [xe2; x80; x87];
    [xe2; x80; x88]; [xe2; x80; x89]; [xe2; x80; x8a];
    [xe2; x80; xa8]; [xe2; x80; xa9]; [xe2; x80; xaf];
    [xe2; x81; x9f];
    [xe3; x80; x80] ].

Fixpoint isPrefix (e s : bytes) : bool :=
  match e, s with
  | [], _ => true
  | x :: e', y :: s' => Byte.eqb x y && isPrefix e' s'
  | _ :: _, [] => false
  end.

Definition isSuffix (e s : bytes) : bool := isPrefix (rev e) (rev s).

(** The rest of [s] after one leading white-space rune. *)
Fixpoint leadRune (es : list bytes) (s : bytes) : option bytes :=
  match es with
  | [] => None
  | e :: es' => if isPrefix e s then Some (skipn (length e) s) else leadRune es' s
  end.

(** The part of [s] before one trailing white-space rune. *)
Fixpoint trailRune (es : list bytes) (s : bytes) : option bytes :=
  match es with
  | [] => None
  | e :: es' =>
      if isSuffix e s then Some (firstn (length s - length e) s)
      else trailRune es' s
  end.

Fixpoint trimLeftFuel (fuel : nat) (s : bytes) : bytes :=
  match fuel with
  | O => s
  | S f => match leadRune whiteSpaceRunes s with
           | Some r => trimLeftFuel f r
           | None => s
           end
  end.

Fixpoint trimRightFuel (fuel : nat) (s : bytes) : bytes :=
  match fuel with
  | O => s
  | S f => match trailRune whiteSpaceRunes s with
           | Some r => trimRightFuel f r
           | None => s
           end
  end.

(** [strings.TrimLeftFunc(s, unicode.IsSpace)] *)
Definition TrimLeftSpace (s : bytes) : bytes := trimLeftFuel (length s) s.
(** [strings.TrimRightFunc(s, unicode.IsSpace)] *)
Definition TrimRightSpace (s : bytes) : bytes := trimRightFuel (length s) s.
(** [strings.TrimSpace(s)] *)
Definition TrimSpace (s : bytes) : bytes := TrimRightSpace (TrimLeftSpace s).

Definition HasSuffix (s suffix : bytes) : bool := isSuffix suffix s.

(** [strings.Count(s, "\n")] *)
Definition countNL (s : bytes) : Z := len (filter (Byte.eqb nl) s).

(** [strings.Join(args, " ")] *)
Fixpoint joinSpace (ls : list bytes) : bytes :=
  match ls with
  | [] => []
  | [w] => w
  | w :: ws => w ++ x20 :: joinSpace ws
  end.

(** [fmt]'s [%d] *)
Definition itoa (z : Z) : bytes := s2b (NilEmpty.string_of_int (Z.to_int z)).

(** [filepath.Dir]: everything before the last separator ("." when there
    is none, "/" when only the root is left); [Clean]'s removal of [.] and
    [..] elements and doubled separators is not modelled. *)
Fixpoint dropToSlash (r : bytes) : option bytes :=
  match r with
  | [] => None
  | c :: r' => if Byte.eqb c "/"%byte then Some r' else dropToSlash r'
  end.

Definition filepathDir (path : bytes) : bytes :=
  match dropToSlash (rev path) with
  | None => s2b "."
  | Some r => match rev r with [] => s2b "/" | dir => dir end
  end.

(** ** The environment of a run

    What the operating system answers: how each child process behaves,
    which executables [exec.LookPath] finds, how the clipboard helpers
    behave on a given input, what the file operations of [writeToFile] do,
    and the formatted [time.Now()].

    [mkdirAll dir] is what [os.MkdirAll(dir, 0755)] does: the directories
    it creates, in order, and the text of its error if it fails (it may
    have created some parents before failing). [openErr path] is the text
    of the error of [os.OpenFile] on [path], if it fails. [room path] is
    [None] when a write to the opened file always succeeds, and [Some (k,
    msg)] when the file takes only [k] more bytes: [f.WriteString] of a
    longer string stores its first [k] bytes and fails with [msg] (a full
    disk, [/dev/full]). *)

Inductive Stream := StdoutS | StderrS.

(** A process either cannot be started, or runs, writing chunks to its
    standard streams in order, and exits with a status. *)
Inductive Proc :=
| StartFails
| Exits (code : Z) (writes : list (Stream * bytes)).

Record Env := {
  proc : list bytes -> Proc;
  lookPath : bytes -> bool;
  clipRun : bytes -> list bytes -> bytes -> Proc;
  mkdirAll : bytes -> list bytes * option bytes;
  openErr : bytes -> option bytes;
  room : bytes -> option (nat * bytes);
  now : bytes
}.

(** Go error values. [ErrWrap p e s] is [fmt.Errorf(p + "%v (stderr: %s)", e, s)]. *)
Inductive GoErr :=
| ErrStart (name : bytes)
| ErrExit (code : Z)
| ErrMsg (msg : bytes)
| ErrWrap (prefix : bytes) (inner : GoErr) (stderr : bytes).

Fixpoint errString (e : GoErr) : bytes :=
  match e with
  | ErrStart name => s2b "exec: " ++ x22 :: name ++ x22 :: s2b ": executable file not found in $PATH"
  | ErrExit code => s2b "exit status " ++ itoa code
  | ErrMsg m => m
  | ErrWrap p e s => p ++ errString e ++ s2b " (stderr: " ++ s ++ s2b ")"
  end.

(** ** The state a run acts on *)

Record St := {
  out : bytes;                                (* what was written to stdout *)
  errout : bytes;                             (* what was written to stderr *)
  files : bytes -> option bytes;              (* the regular files and their contents *)
  clipLog : list (bytes * list bytes * bytes); (* clipboard helper runs: tool, args, stdin *)
  dirs : list bytes                           (* the directories the run created *)
}.

(** A run either goes on with a value or has called [os.Exit(code)]. *)
Inductive Res (A : Type) := Ret (a : A) | Exit (code : Z).
Arguments Ret {A} a.
Arguments Exit {A} code.

Definition M (A : Type) := St -> St * Res A.

Definition ret {A} (a : A) : M A := fun st => (st, Ret a).
Definition bind {A B} (m : M A) (k : A -> M B) : M B :=
  fun st => match m st with
            | (st', Ret a) => k a st'
            | (st', Exit c) => (st', Exit c)
            end.
Definition osExit {A} (code : Z) : M A := fun st => (st, Exit code).

Notation "x <- m ;; k" := (bind m (fun x => k)) (at level 61, m at next level, right associativity).
Notation "m ;; k" := (bind m (fun _ => k)) (at level 61, right associativity).

Definition print (s : bytes) : M unit :=
  fun st => ({| out := out st ++ s; errout := errout st; files := files st; clipLog := clipLog st;
             dirs := dirs st |}, Ret tt).
Definition eprint (s : bytes) : M unit :=
  fun st => ({| out := out st; errout := errout st ++ s; files := files st; clipLog := clipLog st;
             dirs := dirs st |}, Ret tt).
Definition println : M unit := print [nl].

(** The usage literal of [printHelp] (lines 349-383); byte 0x22 is a double quote. *)
Definition helpText : bytes := joinNL [
    s2b "cb - Command output clipboard manager";
    [];
    s2b "Usage:";
    s2b "  cb [flags] <command> [args...]";
    [];
    s2b "Description:";
    s2b "  Run any command, capture its output, save to file, and copy to clipboard.";
    [];
    s2b "Flags:";
    s2b "  -h X              Copy only the head of output by X lines";
    s2b "  -t X              Copy only the tail of output by X lines";
    s2b "  -q [X]            Suppress stdout entirely, or show only X lines";
    s2b "  -f FILE           Write output to specific file instead of /tmp/cb.txt";
    s2b "  -c, --clear       Clear clipboard before writing";
    s2b "  -e, --error       Copy stderr instead of stdout";
    s2b "  -a, --append      Append output to file instead of overwriting";
    s2b "  -n                Disable clipboard, only save to file";
    s2b "  -v, --verbose     Show what was copied / debug info";
    s2b "  --no-temp         Skip writing to /tmp entirely";
    s2b "  -r, --raw         Preserve terminal formatting/ANSI codes";
    s2b "  --delay N         Wait N seconds before copying output";
    s2b "  --trim            Trim leading and trailing whitespace";
    s2b "  --version         Show program version";
    s2b "  --help            Display this help message";
    [];
    s2b "Examples:";
    s2b "  cb echo " ++ [x22] ++ s2b "hello world" ++ [x22];
    s2b "  cb ls -l /home/user";
    s2b "  cb -h 10 dmesg";
    s2b "  cb -f output.txt -v ps aux";
    s2b "  cb -e -v somecommand";
    [];
    s2b "Notes:";
    s2b "  - Requires wl-copy (Wayland) or xclip/xsel (X11) for clipboard support";
    s2b "  - Output is saved with timestamp header: [date time " ++ [x22] ++ s2b "command" ++ [x22] ++ s2b "]:" ].

Section Program.

Variable env : Env.

(** ** Config (the flag values, after parseFlags) *)

Record Config := {
  headLines : Z;
  tailLines : Z;
  quietLines : Z;
  quiet : bool;
  file : bytes;
  clear : bool;
  stderr : bool;
  append : bool;
  noClipboard : bool;
  verbose : bool;
  noTemp : bool;
  raw : bool;
  delay : Z;
  trim : bool;
  help : bool;
  showVersion : bool
}.

Definition version : bytes := s2b "00.00.001".

(** ** executeCommand *)

Definition isStream (k : Stream) (w : Stream * bytes) : bool :=
  match k, fst w with
  | StdoutS, StdoutS | StderrS, StderrS => true
  | _, _ => false
  end.

(** [cmd.Run()] with [cmd.Stdout = &stdout] and [cmd.Stderr] either
    [&stdout] (merged) or [&stderr]: the two buffers and the error. *)
Definition cmdRun (args : list bytes) (merged : bool) : bytes * bytes * option GoErr :=
  match proc env args with
  | StartFails => ([], [], Some (ErrStart (hd [] args)))
  | Exits code ws =>
      let stdoutBuf := concat (map snd (if merged then ws else filter (isStream StdoutS) ws)) in
      let stderrBuf := if merged then [] else concat (map snd (filter (isStream StderrS) ws)) in
      (stdoutBuf, stderrBuf, if code =? 0 then None else Some (ErrExit code))
  end.

Definition executeCommand (args : list bytes) (captureStderr : bool) : bytes * option GoErr :=
  let '(stdout, stderr, err) := cmdRun args captureStderr in
  match err with
  | Some e =>
      if captureStderr then (stdout, None)
      else if 0 <? len stderr then (stdout, Some (ErrWrap [] e stderr))
      else (stdout, Some e)
  | None => (stdout, None)
  end.

(** ** writeToFile *)

Definition writeToFile (path content : bytes) (appendMode : bool) : M (option GoErr) :=
  fun st =>
    let dir := filepathDir path in
    let '(made, mkErr) := mkdirAll env dir in
    let st1 := {| out := out st; errout := errout st; files := files st;
                  clipLog := clipLog st; dirs := dirs st ++ made |} in
    match mkErr with
    | Some msg => (st1, Ret (Some (ErrMsg msg)))
    | None =>
        match openErr env path with
        | Some msg => (st1, Ret (Some (ErrMsg msg)))
        | None =>
            (* O_CREATE|O_WRONLY with O_APPEND (keep the content) or O_TRUNC
               (empty it), then one WriteString; Close's error is dropped *)
            let old := if appendMode then match files st path with Some c => c | None => [] end
                       else [] in
            let '(written, err) :=
              match room env path with
              | Some (k, msg) =>
                  if (k <? length content)%nat then (firstn k content, Some (ErrMsg msg))
                  else (content, None)
              | None => (content, None)
              end in
            let fs' := fun p => if bytes_eqb p path then Some (old ++ written) else files st p in
            ({| out := out st1; errout := errout st1; files := fs'; clipLog := clipLog st1;
                dirs := dirs st1 |}, Ret err)
        end
    end.

(** ** Clipboard *)

Definition detectClipboardTool : option (bytes * list bytes) :=
  if lookPath env (s2b "wl-copy") then Some (s2b "wl-copy", [])
  else if lookPath env (s2b "xclip") then Some (s2b "xclip", [s2b "-selection"; s2b "clipboard"])
  else if lookPath env (s2b "xsel") then Some (s2b "xsel", [s2b "--clipboard"; s2b "--input"])
  else None.

(** [cmd.Run()] of a clipboard helper fed [stdin]; its stderr is captured. *)
Definition runTool (tool : bytes) (args : list bytes) (stdin : bytes)
  : M (option (GoErr * bytes)) :=
  fun st =>
    match clipRun env tool args stdin with
    | StartFails => (st, Ret (Some (ErrStart tool, [])))
    | Exits code ws =>
        let st' := {| out := out st; errout := errout st; files := files st;
                      clipLog := clipLog st ++ [(tool, args, stdin)]; dirs := dirs st |} in
        (st', Ret (if code =? 0 then None
                   else Some (ErrExit code, concat (map snd (filter (isStream StderrS) ws)))))
    end.

Definition copyToClipboard (content : bytes) : M (option GoErr) :=
  match detectClipboardTool with
  | None => ret (Some (ErrMsg (s2b "no clipboard tool found (tried: wl-copy, xclip, xsel)")))
  | Some (tool, args) =>
      r <- runTool tool args content ;;
      match r with
      | Some (err, stderr) => ret (Some (ErrWrap (s2b "clipboard command failed: ") err stderr))
      | None => ret None
      end
  end.

Definition clearClipboard : M (option GoErr) :=
  match detectClipboardTool with
  | None => ret (Some (ErrMsg (s2b "no clipboard tool found")))
  | Some (tool, args) =>
      r <- runTool tool args [] ;;
      ret (option_map fst r)
  end.

(** ** The transform chain of main (lines 104-115): strip, trim, head/tail *)

Definition transformOutput (config : Config) (output : bytes) : bytes :=
  let output := if negb (raw config) then stripANSI output else output in
  let output := if trim config then TrimSpace output else output in
  applyLineFilters output (headLines config) (tailLines config).

(** The Record header of line 120: an opening bracket, the timestamp, a
    space, the command string between double quotes (byte 0x22), a closing
    bracket, a colon and a newline. *)
Definition recordHeader (timestamp cmdStr : bytes) : bytes :=
  x5b :: timestamp ++ x20 :: x22 :: cmdStr ++ [x22; x5d; x3a; nl].

Definition defaultFile : bytes := s2b "/tmp/cb.txt".

(** ** main

    [main] is split along the source: [runPipeline] is lines 89-157
    (execute, delay, transform, persist, publish) and returns the
    transformed text; [printStage] is lines 159-175. [args] is [flag.Args()]. *)

(** [fmt.Println] of the usage literal. *)
Definition printHelp : M unit := print (helpText ++ [nl]).

Definition runPipeline (config : Config) (args : list bytes) : M bytes :=
  let '(output, err) := executeCommand args (stderr config) in
  (match err with
   | Some e => eprint (s2b "Error executing command: " ++ errString e ++ [nl]) ;; osExit 1
   | None => ret tt
   end) ;;
  (if (0 <? delay config) && verbose config
   then print (s2b "Waiting " ++ itoa (delay config) ++ s2b " seconds..." ++ [nl])
   else ret tt) ;;
  let output := transformOutput config output in
  let cmdStr := joinSpace args in
  let header := recordHeader (now env) cmdStr in
  let fullOutput := header ++ output ++ [nl] in
  (if negb (noTemp config) then
     let targetFile := match file config with [] => defaultFile | f => f end in
     e <- writeToFile targetFile fullOutput (append config) ;;
     match e with
     | Some e => eprint (s2b "Error writing to file: " ++ errString e ++ [nl]) ;; osExit 1
     | None => if verbose config
               then print (s2b "Output written to " ++ targetFile ++ [nl])
               else ret tt
     end
   else ret tt) ;;
  (if negb (noClipboard config) then
     (if clear config then
        e <- clearClipboard ;;
        match e with
        | Some e => if verbose config
                    then eprint (s2b "Warning: could not clear clipboard: " ++ errString e ++ [nl])
                    else ret tt
        | None => ret tt
        end
      else ret tt) ;;
     e <- copyToClipboard output ;;
     match e with
     | Some e => eprint (s2b "Error copying to clipboard: " ++ errString e ++ [nl]) ;; osExit 1
     | None => if verbose config
               then print (s2b "Copied " ++ itoa (countNL output + 1) ++ s2b " lines to clipboard" ++ [nl])
               else ret tt
     end
   else ret tt) ;;
  ret output.

Definition printStage (config : Config) (output : bytes) : M unit :=
  if quiet config && (quietLines config =? 0) then ret tt
  else
    let printOutput := if 0 <? quietLines config
                       then limitLines output (quietLines config) else output in
    if negb (bytes_eqb printOutput []) then
      print printOutput ;;
      (if negb (HasSuffix printOutput [nl]) then println else ret tt)
    else ret tt.

Definition main (config : Config) (args : list bytes) : M unit :=
  if help config then printHelp ;; osExit 0 else
  if showVersion config then print (s2b "cb version " ++ version ++ [nl]) ;; osExit 0 else
  match args with
  | [] => eprint (s2b "Error: no command specified" ++ [nl]) ;; printHelp ;; osExit 1
  | _ :: _ =>
      output <- runPipeline config args ;;
      printStage config output
  end.

(** The exit status of a finished run: returning from main exits 0. *)
Definition exitStatus {A} (r : Res A) : Z :=
  match r with Ret _ => 0 | Exit c => c end.

End Program.

(** * Definitions that follow the spec's words *)

(** Spec 4.2 step 3: keep the first [H] lines when [0 < H < len L], then the
    last [T] lines of what is left when [0 < T < its length]. *)
Definition headTailSlice_spec (L : list bytes) (H T : Z) : list bytes :=
  let L1 := if (0 <? H) && (H <? len L) then firstn (Z.to_nat H) L else L in
  if (0 <? T) && (T <? len L1) then skipn (length L1 - Z.to_nat T) L1 else L1.

(** Spec 4.2 step 1 / section 8: an escape sequence [ESC '[' params letter],
    where [params] is a run of digits and semicolons. *)
Definition ansiSeq (params : bytes) (final : byte) : bytes :=
  x1b :: "["%byte :: params ++ [final].

(** [interspersed G T]: [T] is [G] with escape sequences inserted anywhere. *)
Inductive interspersed : bytes -> bytes -> Prop :=
| isp_nil : interspersed [] []
| isp_keep (c : byte) (G T : bytes) :
    interspersed G T -> interspersed (c :: G) (c :: T)
| isp_esc (params : bytes) (final : byte) (G T : bytes) :
    forallb digit_or_semi params = true -> ascii_letter final = true ->
    interspersed G T -> interspersed G (ansiSeq params final ++ T).

(** [G] is escape-free: the pattern matches at no position of [G]. *)
Fixpoint ansiFree (s : bytes) : bool :=
  match s with
  | [] => true
  | _ :: s' => match ansiMatch s with None => ansiFree s' | Some _ => false end
  end.

(** The stages of the chain after the ANSI strip (trim, then head/tail). *)
Definition afterStrip (config : Config) (output : bytes) : bytes :=
  applyLineFilters (if trim config then TrimSpace output else output)
                   (headLines config) (tailLines config).

(** The content a file has before a write ([os.O_CREATE] starts from empty). *)
Definition priorContent (st : St) (path : bytes) : bytes :=
  match files st path with Some c => c | None => [] end.

(** A sample machine: the child prints [hello] and a newline, xclip is
    installed, every directory and file is writable. *)
Definition sampleEnv : Env := {|
  proc := fun _ => Exits 0 [(StdoutS, s2b "hello"); (StdoutS, [nl])];
  lookPath := fun t => bytes_eqb t (s2b "xclip");
  clipRun := fun _ _ _ => Exits 0 [];
  mkdirAll := fun _ => ([], None);
  openErr := fun _ => None;
  room := fun _ => None;
  now := s2b "2025-11-17 19:41:29" |}.

Definition emptySt : St :=
  {| out := []; errout := []; files := fun _ => None; clipLog := []; dirs := [] |}.

(** The configuration with every flag at its default. *)
Definition defaultConfig : Config := {|
  headLines := 0; tailLines := 0; quietLines := 0; quiet := false; file := [];
  clear := false; stderr := false; append := false; noClipboard := false;
  verbose := false; noTemp := false; raw := false; delay := 0; trim := false;
  help := false; showVersion := false |}.

(** The target path of main (lines 125-128). *)
Definition targetFileOf (config : Config) : bytes :=
  match file config with [] => defaultFile | f => f end.

(** [config] with other values of the quiet flag and its line count. *)
Definition setQuiet (config : Config) (q : bool) (n : Z) : Config := {|
  headLines := headLines config; tailLines := tailLines config;
  quietLines := n; quiet := q; file := file config; clear := clear config;
  stderr := stderr config; append := append config;
  noClipboard := noClipboard config; verbose := verbose config;
  noTemp := noTemp config; raw := raw config; delay := delay config;
  trim := trim config; help := help config; showVersion := showVersion config |}.

(** What the print step writes to stdout, as the amended claim C2 states it. *)
Definition echoed (config : Config) (output : bytes) : bytes :=
  if quiet config && (quietLines config =? 0) then []
  else
    let P := if 0 <? quietLines config then limitLines output (quietLines config) else output in
    match P with
    | [] => []
    | _ :: _ => P ++ (if HasSuffix P [nl] then [] else [nl])
    end.


(** A machine on which the child succeeds without output. *)
Definition silentEnv : Env := {|
  proc := fun _ => Exits 0 [];
  lookPath := lookPath sampleEnv; clipRun := clipRun sampleEnv;
  mkdirAll := mkdirAll sampleEnv; openErr := openErr sampleEnv; room := room sampleEnv;
  now := now sampleEnv |}.



(** A machine with none of wl-copy, xclip and xsel installed. *)
Definition noToolEnv : Env := {|
  proc := proc sampleEnv; lookPath := fun _ => false; clipRun := clipRun sampleEnv;
  mkdirAll := mkdirAll sampleEnv; openErr := openErr sampleEnv; room := room sampleEnv;
  now := now sampleEnv |}.

(** The default configuration with [--append]. *)
Definition appendConfig : Config := {|
  headLines := 0; tailLines := 0; quietLines := 0; quiet := false; file := [];
  clear := false; stderr := false; append := true; noClipboard := false;
  verbose := false; noTemp := false; raw := false; delay := 0; trim := false;
  help := false; showVersion := false |}.

(** The Record a run of main persists: header line, transformed captured
    text, newline (lines 117-121). *)
Definition recordOf (env : Env) (config : Config) (args : list bytes) : bytes :=
  recordHeader (now env) (joinSpace args) ++
  transformOutput config (fst (executeCommand env args (stderr config))) ++ [nl].




(** Proofs *)

(** ** Lines *)

Lemma byte_eqb_true (a b : byte) : Byte.eqb a b = true <-> a = b.
Proof. split; [apply Byte.byte_dec_bl | apply Byte.byte_dec_lb]. Qed.

Lemma splitNL_not_nil (s : bytes) : splitNL s <> [].
Proof.
  induction s as [|c s IH]; simpl; [discriminate|].
  destruct (Byte.eqb c nl); [discriminate|].
  destruct (splitNL s); discriminate.
Qed.

Lemma joinNL_cons_cons (w w' : bytes) (ws : list bytes) :
  joinNL (w :: w' :: ws) = w ++ nl :: joinNL (w' :: ws).
Proof. reflexivity. Qed.

Lemma joinNL_consb (c : byte) (w : bytes) (ws : list bytes) :
  joinNL ((c :: w) :: ws) = c :: joinNL (w :: ws).
Proof. destruct ws; reflexivity. Qed.

(** [strings.Join(strings.Split(s, "\n"), "\n") = s] *)
Lemma joinNL_splitNL (s : bytes) : joinNL (splitNL s) = s.
Proof.
  induction s as [|c s IH]; [reflexivity|]. simpl.
  destruct (Byte.eqb c nl) eqn:E.
  - apply byte_eqb_true in E; subst c.
    destruct (splitNL s) as [|w ws] eqn:Es; [exfalso; now apply (splitNL_not_nil s)|].
    rewrite joinNL_cons_cons, <- IH. reflexivity.
  - destruct (splitNL s) as [|w ws] eqn:Es; [exfalso; now apply (splitNL_not_nil s)|].
    rewrite joinNL_consb, IH. reflexivity.
Qed.

Lemma headTailSlice_spec_nonpos (L : list bytes) (H T : Z) :
  H <= 0 -> T <= 0 -> headTailSlice_spec L H T = L.
Proof.
  intros HH HT. unfold headTailSlice_spec.
  replace (0 <? H) with false by (symmetry; apply Z.ltb_ge; lia).
  replace (0 <? T) with false by (symmetry; apply Z.ltb_ge; lia).
  reflexivity.
Qed.

(** C3: applyLineFilters splits its input on newline, keeps the first [H]
    lines when [0 < H < len L], then the last [T] lines of the result when
    [0 < T <] its length, and joins with newline; every other value of [H]
    or [T] (zero, negative, or at least the current line count) leaves its
    stage unchanged. *)
Theorem applyLineFilters_head_then_tail (s : bytes) (H T : Z) :
  applyLineFilters s H T = joinNL (headTailSlice_spec (splitNL s) H T).
Proof.
  unfold applyLineFilters.
  destruct ((H <=? 0) && (T <=? 0)) eqn:E.
  - apply andb_true_iff in E as [E1 E2]. apply Z.leb_le in E1, E2.
    rewrite headTailSlice_spec_nonpos by assumption.
    symmetry. apply joinNL_splitNL.
  - unfold headTailSlice_spec, slice_to, slice_from, len.
    set (L := splitNL s). cbv zeta.
    destruct ((0 <? H) && (H <? Z.of_nat (length L))) eqn:EH;
      [set (L1 := firstn (Z.to_nat H) L) | set (L1 := L)];
      destruct ((0 <? T) && (T <? Z.of_nat (length L1))) eqn:ET; try reflexivity;
      apply andb_true_iff in ET as [ET1 ET2]; apply Z.ltb_lt in ET1, ET2;
      f_equal; f_equal; lia.
Qed.

(** ** ANSI stripping *)

Lemma ansiParams_seq (params rest : bytes) (final : byte) :
  forallb digit_or_semi params = true -> ascii_letter final = true ->
  ansiParams (params ++ final :: rest) = Some (S (length params)).
Proof.
  intros Hp Hf. induction params as [|c params IH]; simpl.
  - destruct (digit_or_semi final) eqn:Ed.
    + (* a digit or ';' is no letter *)
      exfalso. unfold digit_or_semi, ascii_letter in *.
      apply orb_true_iff in Ed as [Ed|Ed].
      * apply andb_true_iff in Ed as [E1 E2]. apply Nat.leb_le in E1, E2.
        apply orb_true_iff in Hf as [Hf|Hf]; apply andb_true_iff in Hf as [F1 F2];
          apply Nat.leb_le in F1, F2; lia.
      * apply byte_eqb_true in Ed. subst final. discriminate.
    + now rewrite Hf.
  - simpl in Hp. apply andb_true_iff in Hp as [Hc Hp].
    rewrite Hc, IH by assumption. reflexivity.
Qed.

Lemma ansiMatch_seq (params rest : bytes) (final : byte) :
  forallb digit_or_semi params = true -> ascii_letter final = true ->
  ansiMatch (ansiSeq params final ++ rest) = Some (length (ansiSeq params final)).
Proof.
  intros Hp Hf. unfold ansiSeq. simpl.
  rewrite <- app_assoc. simpl. rewrite ansiParams_seq by assumption.
  simpl. rewrite length_app. simpl. f_equal. lia.
Qed.

(** An inserted sequence starts with ESC, which ends any parameter run. *)
Lemma ansiParams_interspersed (G T : bytes) (n : nat) :
  interspersed G T -> ansiParams T = Some n -> ansiParams G = Some n.
Proof.
  intros HI. revert n. induction HI as [|c G T HI IH|params final G T Hp Hf HI IH];
    intros n Hm.
  - discriminate.
  - simpl in *. destruct (digit_or_semi c); [|exact Hm].
    destruct (ansiParams T) as [m|] eqn:Em; [|discriminate].
    rewrite (IH m eq_refl). exact Hm.
  - discriminate.
Qed.

Lemma ansiMatch_interspersed (c : byte) (G T : bytes) (n : nat) :
  interspersed G T -> ansiMatch (c :: T) = Some n -> ansiMatch (c :: G) = Some n.
Proof.
  intros HI Hm. inversion HI as [|c1 G' T' HI'|params final G' T' Hp Hf HI']; subst.
  - discriminate.
  - simpl in *. destruct (Byte.eqb c x1b && Byte.eqb c1 "["%byte); [|discriminate].
    destruct (ansiParams T') as [m|] eqn:Em; [|discriminate].
    rewrite (ansiParams_interspersed G' T' m HI' Em). exact Hm.
  - simpl in Hm. rewrite andb_false_r in Hm. discriminate.
Qed.

Lemma stripFuel_interspersed (G T : bytes) :
  interspersed G T -> ansiFree G = true ->
  forall fuel, (length T <= fuel)%nat -> stripFuel fuel T = G.
Proof.
  induction 1 as [|c G T HI IH|params final G T Hp Hf HI IH]; intros Hfree fuel Hfuel.
  - destruct fuel; reflexivity.
  - destruct fuel as [|fuel]; simpl in Hfuel; [lia|].
    cbn [ansiFree] in Hfree. cbn [stripFuel].
    destruct (ansiMatch (c :: G)) as [m|] eqn:EG; [discriminate|].
    destruct (ansiMatch (c :: T)) as [n|] eqn:ET.
    + rewrite (ansiMatch_interspersed c G T n HI ET) in EG. discriminate.
    + rewrite IH by (assumption || lia). reflexivity.
  - destruct fuel as [|fuel].
    + unfold ansiSeq in Hfuel. simpl in Hfuel. lia.
    + assert (Hlen : length (ansiSeq params final ++ T) = S (S (length params + S (length T)))).
      { unfold ansiSeq. simpl. rewrite !length_app. simpl. lia. }
      assert (E : exists c0 T0, ansiSeq params final ++ T = c0 :: T0)
        by (unfold ansiSeq; cbn; eexists; eexists; reflexivity).
      destruct E as (c0 & T0 & E). rewrite E. cbn [stripFuel]. rewrite <- E.
      rewrite ansiMatch_seq by assumption.
      rewrite skipn_app, Nat.sub_diag, skipn_all. simpl.
      apply IH; [assumption|]. rewrite Hlen in Hfuel. lia.
Qed.

(** C4: stripping an escape-free text [G] with escape sequences
    [ESC '[' digits/';' letter] inserted anywhere gives back [G]; in raw
    mode the chain skips the strip and works on the captured text as it
    is, otherwise it works on the stripped text. *)
Theorem stripANSI_removes_interspersed (G T : bytes) (config : Config) :
  ansiFree G = true -> interspersed G T ->
  stripANSI T = G /\
  transformOutput config T = afterStrip config (if raw config then T else G).
Proof.
  intros Hfree HI.
  assert (Hs : stripANSI T = G)
    by (unfold stripANSI; now apply stripFuel_interspersed).
  split; [exact Hs|].
  unfold transformOutput, afterStrip. destruct (raw config); simpl; now rewrite ?Hs.
Qed.

Lemma stripANSI_removes_interspersed_witness :
  let G := s2b "hi" in
  let T := ansiSeq (s2b "1;32") "m"%byte ++ s2b "h" ++ ansiSeq [] "K"%byte ++ s2b "i" in
  ansiFree G = true /\ interspersed G T /\
  (stripANSI T = G /\
   transformOutput defaultConfig T = afterStrip defaultConfig (if raw defaultConfig then T else G)).
Proof.
  intros G T.
  assert (HF : ansiFree G = true) by reflexivity.
  assert (HI : interspersed G T).
  { apply isp_esc; [reflexivity|reflexivity|].
    apply isp_keep. apply (isp_esc [] "K"%byte); [reflexivity|reflexivity|].
    apply isp_keep. apply isp_nil. }
  split; [exact HF|]. split; [exact HI|].
  apply (stripANSI_removes_interspersed G T defaultConfig HF HI).
Defined.

(** ** TrimSpace *)

Lemma isPrefix_length (e s : bytes) : isPrefix e s = true -> (length e <= length s)%nat.
Proof.
  revert s; induction e as [|x e IH]; intros [|y s] H; simpl in *; try lia; try discriminate.
  apply andb_true_iff in H as [_ H]. apply IH in H. lia.
Qed.

Lemma isPrefix_app (e p q : bytes) : isPrefix e p = true -> isPrefix e (p ++ q) = true.
Proof.
  revert p; induction e as [|x e IH]; intros [|y p] H; simpl in *; try reflexivity; try discriminate.
  apply andb_true_iff in H as [H1 H2]. now rewrite H1, IH.
Qed.

Lemma whiteSpaceRunes_nonempty : Forall (fun e => e <> []) whiteSpaceRunes.
Proof. repeat constructor; discriminate. Qed.

Lemma leadRune_shorter (es : list bytes) (s r : bytes) :
  Forall (fun e => e <> []) es -> leadRune es s = Some r -> (length r < length s)%nat.
Proof.
  induction 1 as [|e es He Hes IH]; simpl; [discriminate|].
  destruct (isPrefix e s) eqn:Ep; [|exact IH].
  intros [= <-]. apply isPrefix_length in Ep. rewrite length_skipn.
  destruct e; [contradiction|]. simpl in *. lia.
Qed.

Lemma trailRune_shorter (es : list bytes) (s r : bytes) :
  Forall (fun e => e <> []) es -> trailRune es s = Some r -> (length r < length s)%nat.
Proof.
  induction 1 as [|e es He Hes IH]; simpl; [discriminate|].
  destruct (isSuffix e s) eqn:Ep; [|exact IH].
  intros [= <-]. apply isPrefix_length in Ep. rewrite !length_rev in Ep.
  rewrite length_firstn. destruct e; [contradiction|]. simpl in *. lia.
Qed.

Lemma trailRune_prefix (es : list bytes) (s r : bytes) :
  trailRune es s = Some r -> exists q, s = r ++ q.
Proof.
  induction es as [|e es IH]; simpl; [discriminate|].
  destruct (isSuffix e s); [|exact IH].
  intros [= <-]. eexists. symmetry. apply firstn_skipn.
Qed.

Lemma leadRune_app_none (es : list bytes) (p q : bytes) :
  leadRune es (p ++ q) = None -> leadRune es p = None.
Proof.
  induction es as [|e es IH]; simpl; [reflexivity|].
  destruct (isPrefix e p) eqn:Ep.
  - now rewrite (isPrefix_app e p q Ep).
  - destruct (isPrefix e (p ++ q)); [discriminate|exact IH].
Qed.

Lemma trimLeftFuel_done (f : nat) (s : bytes) :
  (length s <= f)%nat -> leadRune whiteSpaceRunes (trimLeftFuel f s) = None.
Proof.
  revert s; induction f as [|f IH]; intros s Hf; cbn [trimLeftFuel].
  - destruct s; [reflexivity|simpl in Hf; lia].
  - destruct (leadRune whiteSpaceRunes s) as [r|] eqn:E; [|exact E].
    apply IH. pose proof (leadRune_shorter _ _ _ whiteSpaceRunes_nonempty E). lia.
Qed.

Lemma trimRightFuel_done (f : nat) (s : bytes) :
  (length s <= f)%nat -> trailRune whiteSpaceRunes (trimRightFuel f s) = None.
Proof.
  revert s; induction f as [|f IH]; intros s Hf; cbn [trimRightFuel].
  - destruct s; [reflexivity|simpl in Hf; lia].
  - destruct (trailRune whiteSpaceRunes s) as [r|] eqn:E; [|exact E].
    apply IH. pose proof (trailRune_shorter _ _ _ whiteSpaceRunes_nonempty E). lia.
Qed.

Lemma trimRightFuel_prefix (f : nat) (s : bytes) : exists q, s = trimRightFuel f s ++ q.
Proof.
  revert s; induction f as [|f IH]; intros s; cbn [trimRightFuel].
  - exists []. now rewrite app_nil_r.
  - destruct (trailRune whiteSpaceRunes s) as [r|] eqn:E.
    + destruct (trailRune_prefix _ _ _ E) as [q1 ->].
      destruct (IH r) as [q2 Hq2]. exists (q2 ++ q1).
      rewrite app_assoc, <- Hq2. reflexivity.
    + exists []. now rewrite app_nil_r.
Qed.

Lemma trimLeftFuel_id (f : nat) (s : bytes) :
  leadRune whiteSpaceRunes s = None -> trimLeftFuel f s = s.
Proof. intros H. destruct f; cbn [trimLeftFuel]; [reflexivity|now rewrite H]. Qed.

Lemma trimRightFuel_id (f : nat) (s : bytes) :
  trailRune whiteSpaceRunes s = None -> trimRightFuel f s = s.
Proof. intros H. destruct f; cbn [trimRightFuel]; [reflexivity|now rewrite H]. Qed.

(** C9: trimming already-trimmed text changes nothing. *)
Theorem TrimSpace_idempotent (s : bytes) : TrimSpace (TrimSpace s) = TrimSpace s.
Proof.
  unfold TrimSpace, TrimRightSpace, TrimLeftSpace.
  set (t := trimLeftFuel (length s) s).
  set (r := trimRightFuel (length t) t).
  assert (Ht : leadRune whiteSpaceRunes t = None) by (apply trimLeftFuel_done; lia).
  assert (Hr : trailRune whiteSpaceRunes r = None) by (apply trimRightFuel_done; lia).
  destruct (trimRightFuel_prefix (length t) t) as [q Hq].
  assert (Hl : leadRune whiteSpaceRunes r = None).
  { apply (leadRune_app_none _ _ q). fold r in Hq. rewrite <- Hq. exact Ht. }
  rewrite (trimLeftFuel_id _ r Hl), (trimRightFuel_id _ r Hr). reflexivity.
Qed.

(** ** writeToFile *)

Lemma bytes_eqb_refl (a : bytes) : bytes_eqb a a = true.
Proof. induction a as [|x a IH]; simpl; [reflexivity|]. now rewrite Byte.byte_dec_lb. Qed.

Lemma writeToFile_ok (env : Env) (path content : bytes) (appendMode : bool) (st st' : St) :
  writeToFile env path content appendMode st = (st', Ret None) ->
  files st' path = Some ((if appendMode then priorContent st path else []) ++ content).
Proof.
  unfold writeToFile, priorContent.
  destruct (mkdirAll env (filepathDir path)) as [made [msg|]]; [discriminate|].
  destruct (openErr env path) as [msg|]; [discriminate|].
  destruct (room env path) as [[k msg]|];
    [destruct (k <? length content)%nat; [discriminate|]|];
    intros [= <-]; simpl; rewrite bytes_eqb_refl; reflexivity.
Qed.

(** C6: two successful writes of Records [r1] and [r2] to the same path
    leave exactly [r2] in overwrite mode, and the prior content followed by
    [r1] then [r2] in append mode (just [r1 ++ r2] for a new file). *)
Theorem writeToFile_two_records (env : Env) (path r1 r2 : bytes) (appendMode : bool)
    (st st1 st2 : St) :
  writeToFile env path r1 appendMode st = (st1, Ret None) ->
  writeToFile env path r2 appendMode st1 = (st2, Ret None) ->
  files st2 path = Some (if appendMode then priorContent st path ++ r1 ++ r2 else r2).
Proof.
  intros H1 H2.
  apply writeToFile_ok in H1. rewrite (writeToFile_ok _ _ _ _ _ _ H2).
  unfold priorContent at 1. rewrite H1.
  destruct appendMode; simpl; [now rewrite app_assoc | reflexivity].
Qed.

(** ** executeCommand *)

(** C7: with capture-stderr off, a child that exits with a non-zero status
    still yields its standard output, together with an error that is the
    wait error itself, wrapped with the captured stderr text when the child
    wrote any. *)
Theorem executeCommand_child_failure (env : Env) (args : list bytes) (code : Z)
    (ws : list (Stream * bytes)) :
  proc env args = Exits code ws -> code <> 0 ->
  let stdoutText := concat (map snd (filter (isStream StdoutS) ws)) in
  let stderrText := concat (map snd (filter (isStream StderrS) ws)) in
  executeCommand env args false =
    (stdoutText,
     Some (if bytes_eqb stderrText [] then ErrExit code else ErrWrap [] (ErrExit code) stderrText)).
Proof.
  intros Hp Hc. unfold executeCommand, cmdRun. rewrite Hp. cbn zeta.
  replace (code =? 0) with false by (symmetry; now apply Z.eqb_neq).
  destruct (concat (map snd (filter (isStream StderrS) ws))) as [|b bs]; reflexivity.
Qed.

(** ** Clipboard *)

(** C8: the helpers are probed in the order wl-copy, xclip, xsel and the
    first one on the path is used, with its argument set; with none of
    them, copyToClipboard fails, changing nothing, with an error naming all
    three. *)
Theorem clipboard_tool_discovery (env : Env) (content : bytes) (st : St) :
  (lookPath env (s2b "wl-copy") = true ->
   detectClipboardTool env = Some (s2b "wl-copy", [])) /\
  (lookPath env (s2b "wl-copy") = false -> lookPath env (s2b "xclip") = true ->
   detectClipboardTool env = Some (s2b "xclip", [s2b "-selection"; s2b "clipboard"])) /\
  (lookPath env (s2b "wl-copy") = false -> lookPath env (s2b "xclip") = false ->
   lookPath env (s2b "xsel") = true ->
   detectClipboardTool env = Some (s2b "xsel", [s2b "--clipboard"; s2b "--input"])) /\
  (forall tool targs code ws,
   detectClipboardTool env = Some (tool, targs) ->
   clipRun env tool targs content = Exits code ws ->
   clipLog (fst (copyToClipboard env content st)) = clipLog st ++ [(tool, targs, content)]) /\
  (lookPath env (s2b "wl-copy") = false -> lookPath env (s2b "xclip") = false ->
   lookPath env (s2b "xsel") = false ->
   exists msg,
     copyToClipboard env content st = (st, Ret (Some (ErrMsg msg))) /\
     (exists a b, msg = a ++ s2b "wl-copy" ++ b) /\
     (exists a b, msg = a ++ s2b "xclip" ++ b) /\
     (exists a b, msg = a ++ s2b "xsel" ++ b)).
Proof.
  unfold detectClipboardTool.
  split; [intros H; now rewrite H|].
  split; [intros H1 H2; now rewrite H1, H2|].
  split; [intros H1 H2 H3; now rewrite H1, H2, H3|].
  split.
  - intros tool targs code ws Hd Hr. unfold copyToClipboard, detectClipboardTool.
    rewrite Hd. unfold bind, runTool. rewrite Hr. simpl.
    destruct (code =? 0); reflexivity.
  - intros H1 H2 H3. unfold copyToClipboard, detectClipboardTool. rewrite H1, H2, H3.
    eexists. split; [reflexivity|].
    split; [exists (s2b "no clipboard tool found (tried: "), (s2b ", xclip, xsel)"); reflexivity|].
    split; [exists (s2b "no clipboard tool found (tried: wl-copy, "), (s2b ", xsel)"); reflexivity|].
    exists (s2b "no clipboard tool found (tried: wl-copy, xclip, "), (s2b ")"); reflexivity.
Qed.

Lemma writeToFile_two_records_witness :
  let r1 := s2b "[t1 a]:" ++ [nl] in
  let r2 := s2b "[t2 b]:" ++ [nl] in
  let st1 := fst (writeToFile sampleEnv defaultFile r1 true emptySt) in
  let st2 := fst (writeToFile sampleEnv defaultFile r2 true st1) in
  writeToFile sampleEnv defaultFile r1 true emptySt = (st1, Ret None) /\
  writeToFile sampleEnv defaultFile r2 true st1 = (st2, Ret None) /\
  files st2 defaultFile = Some (priorContent emptySt defaultFile ++ r1 ++ r2).
Proof.
  intros r1 r2 st1 st2.
  assert (H1 : writeToFile sampleEnv defaultFile r1 true emptySt = (st1, Ret None)) by reflexivity.
  assert (H2 : writeToFile sampleEnv defaultFile r2 true st1 = (st2, Ret None)) by reflexivity.
  split; [exact H1|]. split; [exact H2|].
  apply (writeToFile_two_records sampleEnv defaultFile r1 r2 true emptySt st1 st2 H1 H2).
Defined.

Lemma executeCommand_child_failure_witness :
  let env := {| proc := fun _ => Exits 2 [(StdoutS, s2b "partial"); (StderrS, s2b "boom")];
                lookPath := lookPath sampleEnv; clipRun := clipRun sampleEnv;
                mkdirAll := mkdirAll sampleEnv; openErr := openErr sampleEnv;
                room := room sampleEnv; now := now sampleEnv |} in
  proc env [s2b "make"] = Exits 2 [(StdoutS, s2b "partial"); (StderrS, s2b "boom")] /\
  2 <> 0 /\
  executeCommand env [s2b "make"] false =
    (s2b "partial", Some (ErrWrap [] (ErrExit 2) (s2b "boom"))).
Proof.
  intros env.
  assert (Hp : proc env [s2b "make"] = Exits 2 [(StdoutS, s2b "partial"); (StderrS, s2b "boom")])
    by reflexivity.
  assert (Hc : 2 <> 0) by lia.
  split; [exact Hp|]. split; [exact Hc|].
  rewrite (executeCommand_child_failure env [s2b "make"] 2 _ Hp Hc). reflexivity.
Defined.

Lemma clipboard_tool_discovery_witness :
  detectClipboardTool sampleEnv = Some (s2b "xclip", [s2b "-selection"; s2b "clipboard"]).
Proof.
  apply (proj1 (proj2 (clipboard_tool_discovery sampleEnv [] emptySt))); reflexivity.
Defined.

(** ** The pipeline of main *)

Lemma bind_ret_inv {A B} (m : M A) (k : A -> M B) (st st' : St) (b : B) :
  bind m k st = (st', Ret b) -> exists st1 a, m st = (st1, Ret a) /\ k a st1 = (st', Ret b).
Proof.
  unfold bind. destruct (m st) as [st1 [a|c]]; [eauto|discriminate].
Qed.

Ltac peel H := apply bind_ret_inv in H as (?st & ?u & ?H & H).

(** The steps that only write to the terminal leave files and clipboard alone. *)
Definition quietStep (st st' : St) : Prop := files st' = files st /\ clipLog st' = clipLog st.

Lemma print_step (s : bytes) (st st' : St) (u : unit) :
  print s st = (st', Ret u) -> quietStep st st'.
Proof. unfold print. intros [= <- _]. split; reflexivity. Qed.

Lemma eprint_step (s : bytes) (st st' : St) (u : unit) :
  eprint s st = (st', Ret u) -> quietStep st st'.
Proof. unfold eprint. intros [= <- _]. split; reflexivity. Qed.

Lemma ret_step {A} (a b : A) (st st' : St) : ret a st = (st', Ret b) -> st' = st /\ b = a.
Proof. unfold ret. intros [= <- <-]. split; reflexivity. Qed.

Lemma runTool_step (env : Env) (tool : bytes) (targs : list bytes) (stdin : bytes)
    (st st' : St) (r : option (GoErr * bytes)) :
  runTool env tool targs stdin st = (st', Ret r) ->
  files st' = files st /\ (r = None -> clipLog st' = clipLog st ++ [(tool, targs, stdin)]).
Proof.
  unfold runTool. destruct (clipRun env tool targs stdin) as [|code ws].
  - intros [= <- <-]. split; [reflexivity|discriminate].
  - intros [= <- <-]. split; reflexivity.
Qed.

Lemma clearClipboard_files (env : Env) (st st' : St) (r : option GoErr) :
  clearClipboard env st = (st', Ret r) -> files st' = files st.
Proof.
  unfold clearClipboard. destruct (detectClipboardTool env) as [[tool targs]|].
  - intros H. peel H. apply runTool_step in H0 as [H0 _].
    apply ret_step in H as [-> _]. exact H0.
  - intros H. apply ret_step in H as [-> _]. reflexivity.
Qed.

Lemma copyToClipboard_ok (env : Env) (t : bytes) (st st' : St) :
  copyToClipboard env t st = (st', Ret None) ->
  files st' = files st /\
  exists tool targs, detectClipboardTool env = Some (tool, targs) /\
                     clipLog st' = clipLog st ++ [(tool, targs, t)].
Proof.
  unfold copyToClipboard. destruct (detectClipboardTool env) as [[tool targs]|].
  - intros H. peel H. destruct u as [[err stderrText]|].
    + apply ret_step in H as [_ H]. discriminate.
    + apply ret_step in H as [-> _]. apply runTool_step in H0 as [Hf Hl].
      split; [exact Hf|]. exists tool, targs. split; [reflexivity|]. now apply Hl.
  - intros H. apply ret_step in H as [_ H]. discriminate.
Qed.

(** A run of the pipeline that gets through returns the transformed
    captured text [t]; the file it persisted holds [header ++ t ++ "\n"]
    after what append mode keeps, and the last clipboard helper run was fed
    [t]. *)
Lemma runPipeline_success (env : Env) (config : Config) (args : list bytes) (st st' : St)
    (t : bytes) :
  runPipeline env config args st = (st', Ret t) ->
  t = transformOutput config (fst (executeCommand env args (stderr config))) /\
  (noTemp config = false ->
   files st' (targetFileOf config) =
     Some ((if append config then priorContent st (targetFileOf config) else []) ++
           recordHeader (now env) (joinSpace args) ++ t ++ [nl])) /\
  (noClipboard config = false ->
   exists tool targs pre, detectClipboardTool env = Some (tool, targs) /\
                          clipLog st' = pre ++ [(tool, targs, t)]).
Proof.
  intros H. unfold runPipeline in H.
  destruct (executeCommand env args (stderr config)) as [output err] eqn:Ex. simpl fst.
  apply bind_ret_inv in H as (st1 & u1 & H1 & H). destruct err as [e|].
  { unfold bind, eprint, osExit in H1. discriminate. }
  apply ret_step in H1 as [-> _].
  apply bind_ret_inv in H as (st2 & u2 & H2 & H).
  assert (Q2 : quietStep st st2).
  { destruct ((0 <? delay config) && verbose config);
      [eapply print_step; eassumption | apply ret_step in H2 as [-> _]; split; reflexivity]. }
  clear H2. cbv zeta in H.
  apply bind_ret_inv in H as (st3 & u3 & H3 & H).
  assert (F3 : noTemp config = false ->
    files st3 (targetFileOf config) =
      Some ((if append config then priorContent st (targetFileOf config) else []) ++
            recordHeader (now env) (joinSpace args) ++ transformOutput config output ++ [nl])).
  { intros ENT. rewrite ENT in H3. simpl negb in H3. cbv iota beta in H3.
    apply bind_ret_inv in H3 as (stw & ew & Hw & H3). destruct ew as [e|].
    - unfold bind, eprint, osExit in H3. discriminate.
    - apply writeToFile_ok in Hw.
      assert (Q : quietStep stw st3).
      { destruct (verbose config);
          [eapply print_step; eassumption | apply ret_step in H3 as [-> _]; split; reflexivity]. }
      destruct Q as [-> _]. unfold targetFileOf. rewrite Hw.
      unfold priorContent. destruct Q2 as [-> _]. reflexivity. }
  apply bind_ret_inv in H as (st4 & u4 & H4 & H). apply ret_step in H as [-> ->].
  assert (FC : files st4 = files st3 /\
               (noClipboard config = false ->
                exists tool targs pre, detectClipboardTool env = Some (tool, targs) /\
                  clipLog st4 = pre ++ [(tool, targs, transformOutput config output)])).
  { destruct (noClipboard config); simpl negb in H4; cbv iota beta in H4.
    - apply ret_step in H4 as [-> _]. split; [reflexivity|discriminate].
    - apply bind_ret_inv in H4 as (st5 & u5 & H5 & H4).
      assert (Fc : files st5 = files st3).
      { destruct (clear config).
        - apply bind_ret_inv in H5 as (st6 & e6 & H6 & H5).
          apply clearClipboard_files in H6. rewrite <- H6.
          destruct e6 as [e|].
          + destruct (verbose config);
              [eapply eprint_step; eassumption | apply ret_step in H5 as [-> _]; reflexivity].
          + apply ret_step in H5 as [-> _]. reflexivity.
        - apply ret_step in H5 as [-> _]. reflexivity. }
      apply bind_ret_inv in H4 as (st7 & e7 & H7 & H4). destruct e7 as [e|].
      + unfold bind, eprint, osExit in H4. discriminate.
      + apply copyToClipboard_ok in H7 as [Hf (tool & targs & Hd & Hl)].
        assert (Q : quietStep st7 st4).
        { destruct (verbose config);
            [eapply print_step; eassumption | apply ret_step in H4 as [-> _]; split; reflexivity]. }
        destruct Q as [Qf Ql]. split; [congruence|].
        intros _. exists tool, targs, (clipLog st5). split; [exact Hd|congruence]. }
  destruct FC as [Ff Fl].
  split; [reflexivity|]. split; [|exact Fl].
  intros ENT. rewrite Ff. apply F3, ENT.
Qed.

Lemma printStage_step (config : Config) (output : bytes) (st : St) :
  printStage config output st =
    ({| out := out st ++ echoed config output; errout := errout st;
        files := files st; clipLog := clipLog st; dirs := dirs st |}, Ret tt).
Proof.
  unfold printStage, echoed.
  destruct (quiet config && (quietLines config =? 0)).
  { destruct st; simpl. now rewrite app_nil_r. }
  cbv zeta.
  destruct (if 0 <? quietLines config then limitLines output (quietLines config) else output)
    as [|b bs]; simpl.
  - destruct st; simpl. now rewrite app_nil_r.
  - unfold bind, print, println, ret. simpl.
    destruct (HasSuffix (b :: bs) [nl]); simpl; unfold print; simpl;
      now rewrite <- ?app_assoc, ?app_nil_r.
Qed.

(** ** C1 *)

Lemma executeCommand_merged_no_error (env : Env) (args : list bytes) :
  snd (executeCommand env args true) = None.
Proof.
  unfold executeCommand, cmdRun.
  destruct (proc env args) as [|code ws]; [reflexivity|].
  destruct (code =? 0); reflexivity.
Qed.




(** ** C2 *)

Lemma main_after_pipeline (env : Env) (config : Config) (args : list bytes) (st st1 : St)
    (t : bytes) :
  help config = false -> showVersion config = false -> args <> [] ->
  runPipeline env config args st = (st1, Ret t) ->
  main env config args st = printStage config t st1.
Proof.
  intros Hh Hv Ha Hr. unfold main. rewrite Hh, Hv.
  destruct args as [|a rest]; [contradiction|].
  unfold bind at 1. now rewrite Hr.
Qed.

(** C2 (as the code has it): once the pipeline has gone through, main
    exits 0 and its last step writes to stdout (after anything printed
    before it) nothing at all when fully quiet (quiet flag set, line count
    0); otherwise, with [P] the transformed text, or its first
    [quietLines] lines when that count is positive, nothing when [P] is
    empty, and else [P] followed by a newline exactly when [P] does not end
    with one. The file system and the clipboard are left as the pipeline
    left them. *)
Theorem main_terminal_output (env : Env) (config : Config) (args : list bytes)
    (st st1 : St) (t : bytes) :
  help config = false -> showVersion config = false -> args <> [] ->
  runPipeline env config args st = (st1, Ret t) ->
  let P := if 0 <? quietLines config then limitLines t (quietLines config) else t in
  exists st',
    main env config args st = (st', Ret tt) /\
    files st' = files st1 /\ clipLog st' = clipLog st1 /\
    (quiet config = true -> quietLines config = 0 -> out st' = out st1) /\
    (negb (quiet config && (quietLines config =? 0)) = true -> P = [] -> out st' = out st1) /\
    (negb (quiet config && (quietLines config =? 0)) = true -> P <> [] ->
     out st' = out st1 ++ P ++ (if HasSuffix P [nl] then [] else [nl])).
Proof.
  intros Hh Hv Ha Hr P.
  rewrite (main_after_pipeline env config args st st1 t Hh Hv Ha Hr), printStage_step.
  eexists. split; [reflexivity|]. simpl. split; [reflexivity|]. split; [reflexivity|].
  unfold echoed. fold P. split; [|split].
  - intros Hq Hn. rewrite Hq, Hn. simpl. apply app_nil_r.
  - intros Hq HP. apply negb_true_iff in Hq. rewrite Hq, HP. apply app_nil_r.
  - intros Hq HP. apply negb_true_iff in Hq. rewrite Hq.
    destruct P as [|b bs]; [contradiction|reflexivity].
Qed.

Lemma main_terminal_output_witness :
  let args := [s2b "echo"; s2b "hello"] in
  let r := runPipeline sampleEnv defaultConfig args emptySt in
  help defaultConfig = false /\ showVersion defaultConfig = false /\ args <> [] /\
  runPipeline sampleEnv defaultConfig args emptySt = (fst r, Ret (s2b "hello" ++ [nl])) /\
  exists st', main sampleEnv defaultConfig args emptySt = (st', Ret tt) /\
    out st' = out (fst r) ++ s2b "hello" ++ [nl].
Proof.
  intros args r.
  assert (H1 : help defaultConfig = false) by reflexivity.
  assert (H2 : showVersion defaultConfig = false) by reflexivity.
  assert (H3 : args <> []) by discriminate.
  assert (H4 : runPipeline sampleEnv defaultConfig args emptySt = (fst r, Ret (s2b "hello" ++ [nl])))
    by reflexivity.
  split; [exact H1|]. split; [exact H2|]. split; [exact H3|]. split; [exact H4|].
  destruct (main_terminal_output sampleEnv defaultConfig args emptySt (fst r) _ H1 H2 H3 H4)
    as (st' & Hm & _ & _ & _ & _ & Hp).
  exists st'. split; [exact Hm|]. rewrite Hp by (vm_compute; congruence || discriminate).
  reflexivity.
Defined.

(** C2 fails as stated: a command with empty output, run without [-q],
    gets no newline on stdout although the printed text lacks one. *)
Lemma main_empty_output_counterexample :
  let r := main silentEnv defaultConfig [s2b "true"] emptySt in
  exitStatus (snd r) = 0 /\
  transformOutput defaultConfig [] = [] /\
  out (fst r) = [] /\
  out (fst r) <> [] ++ [nl].
Proof. vm_compute. split; [reflexivity|]. split; [reflexivity|]. split; [reflexivity|discriminate]. Qed.

(** ** C5 *)

Lemma runPipeline_setQuiet (env : Env) (config : Config) (args : list bytes) (q : bool) (n : Z) :
  runPipeline env (setQuiet config q n) args = runPipeline env config args.
Proof. reflexivity. Qed.

(** C5: the quiet flag and its display line count change neither what is
    persisted, nor what the clipboard helpers are fed, nor the exit status;
    and in a run that gets through, the text in the persisted Record and
    the text fed to the clipboard helper are both the transformed text [t]
    (strip, trim, head/tail), never its display-limited copy. *)
Theorem display_limit_print_only (env : Env) (config : Config) (args : list bytes) (st : St)
    (q : bool) (n : Z) :
  files (fst (main env (setQuiet config q n) args st)) = files (fst (main env config args st)) /\
  clipLog (fst (main env (setQuiet config q n) args st)) = clipLog (fst (main env config args st)) /\
  exitStatus (snd (main env (setQuiet config q n) args st)) =
    exitStatus (snd (main env config args st)) /\
  (forall st' t, runPipeline env config args st = (st', Ret t) ->
   t = transformOutput config (fst (executeCommand env args (stderr config))) /\
   (noTemp config = false ->
    files st' (targetFileOf config) =
      Some ((if append config then priorContent st (targetFileOf config) else []) ++
            recordHeader (now env) (joinSpace args) ++ t ++ [nl])) /\
   (noClipboard config = false ->
    exists tool targs pre, detectClipboardTool env = Some (tool, targs) /\
                           clipLog st' = pre ++ [(tool, targs, t)])).
Proof.
  split; [|split; [|split]]; [..|intros st' t; apply runPipeline_success].
  all: unfold main; cbn [help showVersion setQuiet];
    destruct (help config); [reflexivity|];
    destruct (showVersion config); [reflexivity|];
    destruct args as [|a rest]; [reflexivity|];
    rewrite runPipeline_setQuiet; unfold bind;
    destruct (runPipeline env config (a :: rest) st) as [st1 [t|c]]; [|reflexivity];
    rewrite !printStage_step; reflexivity.
Qed.

Lemma display_limit_print_only_witness :
  let args := [s2b "echo"; s2b "hello"] in
  let r := runPipeline sampleEnv defaultConfig args emptySt in
  runPipeline sampleEnv defaultConfig args emptySt = (fst r, Ret (s2b "hello" ++ [nl])) /\
  files (fst r) defaultFile =
    Some (recordHeader (now sampleEnv) (s2b "echo hello") ++ s2b "hello" ++ [nl] ++ [nl]).
Proof.
  intros args r.
  assert (H : runPipeline sampleEnv defaultConfig args emptySt = (fst r, Ret (s2b "hello" ++ [nl])))
    by reflexivity.
  split; [exact H|].
  destruct (display_limit_print_only sampleEnv defaultConfig args emptySt true 1)
    as (_ & _ & _ & Hs).
  destruct (Hs _ _ H) as (_ & Hf & _).
  etransitivity; [exact (Hf eq_refl)|reflexivity].
Defined.

(** * Further properties of the code *)

(** ** strings.Split and strings.Join on newline *)

Lemma splitNL_pieces (s : bytes) : Forall (fun w => ~ In nl w) (splitNL s).
Proof.
  induction s as [|c s IH]; simpl; [constructor; [intros []|constructor]|].
  destruct (Byte.eqb c nl) eqn:E; [constructor; [intros []|exact IH]|].
  destruct (splitNL s) as [|w ws] eqn:Es; [constructor; [|constructor]|].
  - intros [H|[]]. subst c. rewrite Byte.byte_dec_lb in E; [discriminate|reflexivity].
  - inversion IH as [|w' ws' Hw Hws]; subst. constructor; [|exact Hws].
    intros [H|H]; [subst c; rewrite Byte.byte_dec_lb in E; [discriminate|reflexivity]|].
    contradiction.
Qed.

(** X1: [strings.Split(s, "\n")] returns at least one piece, no piece
    contains a newline, and joining the pieces with newline gives [s]. *)
Theorem splitNL_then_joinNL (s : bytes) :
  splitNL s <> [] /\ Forall (fun w => ~ In nl w) (splitNL s) /\ joinNL (splitNL s) = s.
Proof.
  split; [apply splitNL_not_nil|]. split; [apply splitNL_pieces|apply joinNL_splitNL].
Qed.

Lemma splitNL_no_nl (w : bytes) : ~ In nl w -> splitNL w = [w].
Proof.
  induction w as [|c w IH]; intros H; [reflexivity|]. simpl.
  destruct (Byte.eqb c nl) eqn:E.
  - apply byte_eqb_true in E. subst c. exfalso. apply H. left. reflexivity.
  - rewrite IH by (intros Hin; apply H; right; exact Hin). reflexivity.
Qed.

Lemma splitNL_app_nl (w r : bytes) : ~ In nl w -> splitNL (w ++ nl :: r) = w :: splitNL r.
Proof.
  induction w as [|c w IH]; intros H; simpl.
  - reflexivity.
  - destruct (Byte.eqb c nl) eqn:E.
    + apply byte_eqb_true in E. subst c. exfalso. apply H. left. reflexivity.
    + rewrite IH by (intros Hin; apply H; right; exact Hin). reflexivity.
Qed.

Lemma splitNL_joinNL (ls : list bytes) :
  ls <> [] -> Forall (fun w => ~ In nl w) ls -> splitNL (joinNL ls) = ls.
Proof.
  induction ls as [|w ws IH]; intros Hne Hf; [contradiction|].
  inversion Hf as [|w' ws' Hw Hws]; subst.
  destruct ws as [|w2 ws].
  - apply splitNL_no_nl, Hw.
  - rewrite joinNL_cons_cons, splitNL_app_nl by exact Hw.
    rewrite IH by (discriminate || exact Hws). reflexivity.
Qed.

(** X2: joining a non-empty list of newline-free lines with newline and
    splitting the result on newline gives the list back. *)
Theorem joinNL_then_splitNL (ls : list bytes) :
  ls <> [] -> Forall (fun w => ~ In nl w) ls -> splitNL (joinNL ls) = ls.
Proof. apply splitNL_joinNL. Qed.

Lemma joinNL_then_splitNL_witness :
  [s2b "a"; []; s2b "b"] <> [] /\ Forall (fun w => ~ In nl w) [s2b "a"; []; s2b "b"] /\
  splitNL (joinNL [s2b "a"; []; s2b "b"]) = [s2b "a"; []; s2b "b"].
Proof.
  assert (H1 : [s2b "a"; []; s2b "b"] <> []) by discriminate.
  assert (H2 : Forall (fun w => ~ In nl w) [s2b "a"; []; s2b "b"]).
  { repeat constructor; simpl; intros H; repeat destruct H as [H|H]; discriminate || contradiction. }
  split; [exact H1|]. split; [exact H2|]. apply (joinNL_then_splitNL _ H1 H2).
Defined.

(** ** limitLines *)

Lemma joinNL_firstn_prefix (k : nat) (ls : list bytes) :
  exists q, joinNL ls = joinNL (firstn k ls) ++ q.
Proof.
  revert ls; induction k as [|k IH]; intros ls; [exists (joinNL ls); reflexivity|].
  destruct ls as [|w ws]; [exists []; reflexivity|].
  simpl firstn. destruct ws as [|w2 ws].
  - rewrite firstn_nil. exists []. simpl. now rewrite app_nil_r.
  - destruct k as [|k].
    + simpl. eexists. reflexivity.
    + destruct (IH (w2 :: ws)) as [q Hq]. exists q.
      simpl firstn. rewrite !joinNL_cons_cons. simpl firstn in Hq. rewrite Hq.
      now rewrite <- app_assoc.
Qed.


Lemma Forall_firstn_skipn {A} (P : A -> Prop) (k : nat) (l : list A) :
  Forall P l -> Forall P (firstn k l) /\ Forall P (skipn k l).
Proof. intros H. rewrite <- (firstn_skipn k l) in H. apply Forall_app in H. exact H. Qed.

(** X3: the display copy [limitLines(output, maxLines)] is a prefix of
    [output]; for a positive [maxLines] it has [min(maxLines, n)] lines,
    where [n] is the number of lines of [output]. *)
Theorem limitLines_prefix_count (s : bytes) (n : Z) :
  (exists q, s = limitLines s n ++ q) /\
  (0 < n -> length (splitNL (limitLines s n)) = Nat.min (Z.to_nat n) (length (splitNL s))).
Proof.
  unfold limitLines, slice_to, len. split.
  - destruct (n <=? 0); [exists []; now rewrite app_nil_r|].
    destruct (Z.of_nat (length (splitNL s)) <=? n); [exists []; now rewrite app_nil_r|].
    destruct (joinNL_firstn_prefix (Z.to_nat n) (splitNL s)) as [q Hq].
    exists q. rewrite <- Hq. symmetry. apply joinNL_splitNL.
  - intros Hn. replace (n <=? 0) with false by (symmetry; apply Z.leb_gt; lia).
    destruct (Z.of_nat (length (splitNL s)) <=? n) eqn:E.
    + apply Z.leb_le in E. lia.
    + apply Z.leb_gt in E. rewrite splitNL_joinNL.
      * apply length_firstn.
      * intros H0. apply (f_equal (@length bytes)) in H0.
        rewrite length_firstn in H0. simpl in H0. lia.
      * apply Forall_firstn_skipn, splitNL_pieces.
Qed.

Lemma limitLines_prefix_count_witness :
  (exists q, (joinNL [s2b "a"; s2b "b"; s2b "c"]) = limitLines ((joinNL [s2b "a"; s2b "b"; s2b "c"])) 2 ++ q) /\
  length (splitNL (limitLines ((joinNL [s2b "a"; s2b "b"; s2b "c"])) 2)) = Nat.min (Z.to_nat 2) (length (splitNL ((joinNL [s2b "a"; s2b "b"; s2b "c"])))).
Proof.
  destruct (limitLines_prefix_count ((joinNL [s2b "a"; s2b "b"; s2b "c"])) 2) as [H1 H2].
  split; [exact H1|apply H2; lia].
Defined.

(** ** applyLineFilters *)

Lemma applyLineFilters_slice (s : bytes) (H T : Z) :
  applyLineFilters s H T = joinNL (headTailSlice_spec (splitNL s) H T).
Proof.
  unfold applyLineFilters.
  destruct ((H <=? 0) && (T <=? 0)) eqn:E.
  - apply andb_true_iff in E as [E1 E2]. apply Z.leb_le in E1, E2.
    rewrite headTailSlice_spec_nonpos by assumption. symmetry. apply joinNL_splitNL.
  - unfold headTailSlice_spec, slice_to, slice_from, len.
    set (L := splitNL s). cbv zeta.
    destruct ((0 <? H) && (H <? Z.of_nat (length L))) eqn:EH;
      [set (L1 := firstn (Z.to_nat H) L) | set (L1 := L)];
      destruct ((0 <? T) && (T <? Z.of_nat (length L1))) eqn:ET; try reflexivity;
      apply andb_true_iff in ET as [ET1 ET2]; apply Z.ltb_lt in ET1, ET2;
      f_equal; f_equal; lia.
Qed.

Lemma headTailSlice_spec_shape (L : list bytes) (H T : Z) :
  L <> [] ->
  headTailSlice_spec L H T <> [] /\
  (exists a b, L = a ++ headTailSlice_spec L H T ++ b) /\
  (0 < H -> Z.of_nat (length (headTailSlice_spec L H T)) <= H) /\
  (0 < T -> Z.of_nat (length (headTailSlice_spec L H T)) <= T).
Proof.
  intros HL. unfold headTailSlice_spec, len.
  set (L1 := if (0 <? H) && (H <? Z.of_nat (length L)) then firstn (Z.to_nat H) L else L).
  assert (HL1 : L1 <> [] /\ (exists b, L = L1 ++ b) /\
                (0 < H -> Z.of_nat (length L1) <= H)).
  { subst L1. destruct ((0 <? H) && (H <? Z.of_nat (length L))) eqn:E.
    - apply andb_true_iff in E as [E1 E2]. apply Z.ltb_lt in E1, E2.
      split; [|split].
      + intros H0. apply (f_equal (@length bytes)) in H0.
        rewrite length_firstn in H0. simpl in H0. lia.
      + exists (skipn (Z.to_nat H) L). symmetry. apply firstn_skipn.
      + intros _. rewrite length_firstn. lia.
    - split; [exact HL|split; [exists []; now rewrite app_nil_r|]].
      intros H0. apply andb_false_iff in E as [E|E]; apply Z.ltb_ge in E; lia. }
  destruct HL1 as (HL1ne & [b Hb] & HL1H).
  clearbody L1.
  destruct ((0 <? T) && (T <? Z.of_nat (length L1))) eqn:E.
  - apply andb_true_iff in E as [E1 E2]. apply Z.ltb_lt in E1, E2.
    assert (Hlen : length (skipn (length L1 - Z.to_nat T) L1) = Z.to_nat T)
      by (rewrite length_skipn; lia).
    split; [|split; [|split]].
    + intros H0. rewrite H0 in Hlen. simpl in Hlen. lia.
    + exists (firstn (length L1 - Z.to_nat T) L1), b.
      rewrite app_assoc, firstn_skipn. exact Hb.
    + intros H0. rewrite Hlen.
      assert (Z.of_nat (length L1) <= H) by (apply HL1H; exact H0). lia.
    + intros _. rewrite Hlen. lia.
  - split; [exact HL1ne|split; [exists [], b; exact Hb|split; [exact HL1H|]]].
    intros H0. apply andb_false_iff in E as [E|E]; apply Z.ltb_ge in E; lia.
Qed.

(** X4: the lines of [applyLineFilters(output, h, t)] form a contiguous
    run of the lines of [output]; there are at most [h] of them when [h]
    is positive and at most [t] of them when [t] is positive. *)
Theorem applyLineFilters_window (s : bytes) (H T : Z) :
  (exists a b, splitNL s = a ++ splitNL (applyLineFilters s H T) ++ b) /\
  (0 < H -> Z.of_nat (length (splitNL (applyLineFilters s H T))) <= H) /\
  (0 < T -> Z.of_nat (length (splitNL (applyLineFilters s H T))) <= T).
Proof.
  rewrite applyLineFilters_slice.
  destruct (headTailSlice_spec_shape (splitNL s) H T (splitNL_not_nil s))
    as (Hne & Hinf & HH & HT).
  assert (Hpieces : Forall (fun w => ~ In nl w) (headTailSlice_spec (splitNL s) H T)).
  { destruct Hinf as (a & b & Hab). pose proof (splitNL_pieces s) as P.
    rewrite Hab in P. apply Forall_app in P as [_ P]. apply Forall_app in P as [P _]. exact P. }
  rewrite (splitNL_joinNL _ Hne Hpieces). auto.
Qed.

Lemma applyLineFilters_window_witness :
  (exists a b, splitNL ((joinNL [s2b "1"; s2b "2"; s2b "3"; s2b "4"; s2b "5"])) =
     a ++ splitNL (applyLineFilters ((joinNL [s2b "1"; s2b "2"; s2b "3"; s2b "4"; s2b "5"])) 4 2) ++ b) /\
  Z.of_nat (length (splitNL (applyLineFilters ((joinNL [s2b "1"; s2b "2"; s2b "3"; s2b "4"; s2b "5"])) 4 2))) <= 4 /\
  Z.of_nat (length (splitNL (applyLineFilters ((joinNL [s2b "1"; s2b "2"; s2b "3"; s2b "4"; s2b "5"])) 4 2))) <= 2.
Proof.
  destruct (applyLineFilters_window ((joinNL [s2b "1"; s2b "2"; s2b "3"; s2b "4"; s2b "5"])) 4 2) as (H1 & H2 & H3).
  split; [exact H1|split; [apply H2; lia|apply H3; lia]].
Defined.

(** ** stripANSI *)

Lemma stripFuel_length (f : nat) (s : bytes) : (length (stripFuel f s) <= length s)%nat.
Proof.
  revert s; induction f as [|f IH]; intros s; cbn [stripFuel]; [lia|].
  destruct s as [|c s']; [simpl; lia|].
  destruct (ansiMatch (c :: s')) as [n|].
  - etransitivity; [apply IH|]. rewrite length_skipn. lia.
  - simpl. specialize (IH s'). lia.
Qed.

Lemma ansiMatch_no_esc (c : byte) (s : bytes) : c <> x1b -> ansiMatch (c :: s) = None.
Proof.
  intros Hc. unfold ansiMatch. destruct s as [|c1 s]; [reflexivity|].
  destruct (Byte.eqb c x1b) eqn:E; [apply byte_eqb_true in E; contradiction|reflexivity].
Qed.

Lemma stripFuel_no_esc (f : nat) (s : bytes) : ~ In x1b s -> stripFuel f s = s.
Proof.
  revert s; induction f as [|f IH]; intros s Hs; cbn [stripFuel]; [reflexivity|].
  destruct s as [|c s']; [reflexivity|].
  rewrite ansiMatch_no_esc by (intros ->; apply Hs; left; reflexivity).
  rewrite IH by (intros Hin; apply Hs; right; exact Hin). reflexivity.
Qed.

(** X5: [stripANSI] never makes its input longer, and text with no ESC
    byte passes through it unchanged. *)
Theorem stripANSI_shrinks_and_keeps_plain (s : bytes) :
  (length (stripANSI s) <= length s)%nat /\ (~ In x1b s -> stripANSI s = s).
Proof. split; [apply stripFuel_length|apply stripFuel_no_esc]. Qed.

Lemma stripANSI_shrinks_and_keeps_plain_witness :
  (length (stripANSI (s2b "plain [0m text")) <= length (s2b "plain [0m text"))%nat /\
  stripANSI (s2b "plain [0m text") = s2b "plain [0m text".
Proof.
  destruct (stripANSI_shrinks_and_keeps_plain (s2b "plain [0m text")) as [H1 H2].
  split; [exact H1|apply H2; simpl; intros H; repeat destruct H as [H|H]; discriminate || contradiction].
Defined.

(** ** TrimSpace *)

Lemma isPrefix_eq (e s : bytes) : isPrefix e s = true -> s = e ++ skipn (length e) s.
Proof.
  revert s; induction e as [|x e IH]; intros [|y s] H; simpl in *; try reflexivity; try discriminate.
  apply andb_true_iff in H as [H1 H2]. apply byte_eqb_true in H1. subst y.
  f_equal. apply IH, H2.
Qed.

Lemma leadRune_split (es : list bytes) (s r : bytes) :
  leadRune es s = Some r -> exists e, In e es /\ s = e ++ r.
Proof.
  induction es as [|e es IH]; simpl; [discriminate|].
  destruct (isPrefix e s) eqn:Ep.
  - intros [= <-]. exists e. split; [left; reflexivity|]. apply isPrefix_eq, Ep.
  - intros H. destruct (IH H) as (e' & Hin & Hs). exists e'. split; [right; exact Hin|exact Hs].
Qed.

Lemma isSuffix_eq (e s : bytes) : isSuffix e s = true -> s = firstn (length s - length e) s ++ e.
Proof.
  unfold isSuffix. intros H. apply isPrefix_eq in H.
  set (t := skipn (length (rev e)) (rev s)) in H.
  assert (Hs : s = rev t ++ e).
  { rewrite <- (rev_involutive s), H, rev_app_distr, rev_involutive. reflexivity. }
  assert (Hl : (length s - length e = length (rev t))%nat).
  { rewrite Hs at 1. rewrite length_app. lia. }
  rewrite Hl. rewrite Hs at 2. rewrite firstn_app, Nat.sub_diag, firstn_O, app_nil_r, firstn_all.
  exact Hs.
Qed.

Lemma trailRune_split (es : list bytes) (s r : bytes) :
  trailRune es s = Some r -> exists e, In e es /\ s = r ++ e.
Proof.
  induction es as [|e es IH]; simpl; [discriminate|].
  destruct (isSuffix e s) eqn:Ep.
  - intros [= <-]. exists e. split; [left; reflexivity|]. apply isSuffix_eq, Ep.
  - intros H. destruct (IH H) as (e' & Hin & Hs). exists e'. split; [right; exact Hin|exact Hs].
Qed.

Lemma trimLeftFuel_split (f : nat) (s : bytes) :
  exists la, Forall (fun e => In e whiteSpaceRunes) la /\ s = concat la ++ trimLeftFuel f s.
Proof.
  revert s; induction f as [|f IH]; intros s; cbn [trimLeftFuel]; [exists []; split; [constructor|reflexivity]|].
  destruct (leadRune whiteSpaceRunes s) as [r|] eqn:E; [|exists []; split; [constructor|reflexivity]].
  destruct (leadRune_split _ _ _ E) as (e & He & ->).
  destruct (IH r) as (la & Hla & Hr). exists (e :: la). split; [constructor; assumption|].
  simpl. rewrite <- app_assoc, <- Hr. reflexivity.
Qed.

Lemma trimRightFuel_split (f : nat) (s : bytes) :
  exists lb, Forall (fun e => In e whiteSpaceRunes) lb /\ s = trimRightFuel f s ++ concat lb.
Proof.
  revert s; induction f as [|f IH]; intros s; cbn [trimRightFuel];
    [exists []; split; [constructor|now rewrite app_nil_r]|].
  destruct (trailRune whiteSpaceRunes s) as [r|] eqn:E;
    [|exists []; split; [constructor|now rewrite app_nil_r]].
  destruct (trailRune_split _ _ _ E) as (e & He & ->).
  destruct (IH r) as (lb & Hlb & Hr). exists (lb ++ [e]). split.
  - apply Forall_app. split; [exact Hlb|constructor; [exact He|constructor]].
  - rewrite concat_app. simpl. rewrite app_nil_r, app_assoc, <- Hr. reflexivity.
Qed.

(** X6: [strings.TrimSpace(s)] is [s] with a run of white-space runes cut
    off at each end, and the result neither starts nor ends with a
    white-space rune. *)
Theorem TrimSpace_cuts_space (s : bytes) :
  (exists la lb, Forall (fun e => In e whiteSpaceRunes) la /\
                 Forall (fun e => In e whiteSpaceRunes) lb /\
                 s = concat la ++ TrimSpace s ++ concat lb) /\
  leadRune whiteSpaceRunes (TrimSpace s) = None /\
  trailRune whiteSpaceRunes (TrimSpace s) = None.
Proof.
  unfold TrimSpace, TrimRightSpace, TrimLeftSpace.
  set (t := trimLeftFuel (length s) s).
  set (r := trimRightFuel (length t) t).
  assert (Ht : leadRune whiteSpaceRunes t = None) by (apply trimLeftFuel_done; lia).
  destruct (trimLeftFuel_split (length s) s) as (la & Hla & Hs). fold t in Hs.
  destruct (trimRightFuel_split (length t) t) as (lb & Hlb & Ht'). fold r in Ht'.
  split; [|split].
  - exists la, lb. split; [exact Hla|split; [exact Hlb|]]. rewrite Hs at 1. rewrite Ht' at 1. reflexivity.
  - apply (leadRune_app_none _ _ (concat lb)). rewrite <- Ht'. exact Ht.
  - apply trimRightFuel_done. lia.
Qed.

(** ** writeToFile: failures and the paths it leaves alone *)

Lemma bytes_eqb_eq (a b : bytes) : bytes_eqb a b = true -> a = b.
Proof.
  revert b; induction a as [|x a IH]; intros [|y b] H; simpl in H; try discriminate; [reflexivity|].
  apply andb_true_iff in H as [H1 H2]. apply byte_eqb_true in H1. subst y. f_equal. apply IH, H2.
Qed.

Lemma writeToFile_cases (env : Env) (path content : bytes) (appendMode : bool) (st : St) :
  let old := if appendMode then priorContent st path else [] in
  exists st' r,
    writeToFile env path content appendMode st = (st', Ret r) /\
    out st' = out st /\ errout st' = errout st /\ clipLog st' = clipLog st /\
    dirs st' = dirs st ++ fst (mkdirAll env (filepathDir path)) /\
    (forall p, p <> path -> files st' p = files st p) /\
    ((r = None /\ files st' path = Some (old ++ content)) \/
     (exists msg, r = Some (ErrMsg msg) /\ files st' = files st) \/
     (exists k msg, (k < length content)%nat /\ r = Some (ErrMsg msg) /\
                    files st' path = Some (old ++ firstn k content))).
Proof.
  intros old. unfold writeToFile.
  destruct (mkdirAll env (filepathDir path)) as [made [msg|]] eqn:Em.
  { do 2 eexists. split; [reflexivity|]. simpl.
    do 4 (split; [reflexivity|]). split; [intros; reflexivity|].
    right; left. eauto. }
  destruct (openErr env path) as [msg|].
  { do 2 eexists. split; [reflexivity|]. simpl.
    do 4 (split; [reflexivity|]). split; [intros; reflexivity|].
    right; left. eauto. }
  assert (Hp : forall w p, p <> path ->
     (if bytes_eqb p path then Some (old ++ w) else files st p) = files st p).
  { intros w q Hq. destruct (bytes_eqb q path) eqn:E; [|reflexivity].
    apply bytes_eqb_eq in E. contradiction. }
  assert (Ho : (if appendMode then match files st path with Some c => c | None => [] end else []) = old)
    by reflexivity.
  destruct (room env path) as [[k msg]|].
  - destruct (k <? length content)%nat eqn:Ek.
    + do 2 eexists. split; [reflexivity|]. simpl.
      do 4 (split; [reflexivity|]). split; [intros q Hq; apply Hp, Hq|].
      right; right. exists k, msg. apply Nat.ltb_lt in Ek.
      split; [exact Ek|split; [reflexivity|]]. rewrite bytes_eqb_refl. reflexivity.
    + do 2 eexists. split; [reflexivity|]. simpl.
      do 4 (split; [reflexivity|]). split; [intros q Hq; apply Hp, Hq|].
      left. split; [reflexivity|]. rewrite bytes_eqb_refl. reflexivity.
  - do 2 eexists. split; [reflexivity|]. simpl.
    do 4 (split; [reflexivity|]). split; [intros q Hq; apply Hp, Hq|].
    left. split; [reflexivity|]. rewrite bytes_eqb_refl. reflexivity.
Qed.


(** ** main: failures after the command ran *)

Lemma bind_ret_eq {A B} (m : M A) (k : A -> M B) (st st1 : St) (a : A) :
  m st = (st1, Ret a) -> bind m k st = k a st1.
Proof. intros H. unfold bind. rewrite H. reflexivity. Qed.


Lemma delay_step (config : Config) (st : St) :
  exists st2,
    (if (0 <? delay config) && verbose config
     then print (s2b "Waiting " ++ itoa (delay config) ++ s2b " seconds..." ++ [nl])
     else ret tt) st = (st2, Ret tt) /\
    files st2 = files st /\ clipLog st2 = clipLog st /\ errout st2 = errout st.
Proof. destruct ((0 <? delay config) && verbose config); eexists; split; try reflexivity; simpl; auto. Qed.

(** ** main: what --no-temp and --no-clipboard rule out *)










(** ** main: --clear changes neither the Record nor the exit status *)











(** ** main: successive runs *)

Lemma main_success_files (env : Env) (config : Config) (args : list bytes) (st st' : St) :
  main env config args st = (st', Ret tt) -> noTemp config = false ->
  files st' (targetFileOf config) =
    Some ((if append config then priorContent st (targetFileOf config) else []) ++
          recordHeader (now env) (joinSpace args) ++
          transformOutput config (fst (executeCommand env args (stderr config))) ++ [nl]).
Proof.
  intros H Hn. unfold main in H.
  destruct (help config); [unfold bind, printHelp, print, osExit in H; discriminate|].
  destruct (showVersion config); [unfold bind, print, osExit in H; discriminate|].
  destruct args as [|a rest]; [unfold bind, eprint, printHelp, print, osExit in H; discriminate|].
  apply bind_ret_inv in H as (st1 & t & Hr & H).
  rewrite printStage_step in H. injection H as <-. simpl.
  destruct (runPipeline_success env config (a :: rest) st st1 t Hr) as (Ht & Hf & _).
  rewrite (Hf Hn), Ht. reflexivity.
Qed.

(** ** main: the stages around the write *)

Lemma bind_assoc_st {A B C} (m : M A) (k : A -> M B) (h : B -> M C) (st : St) :
  bind (bind m k) h st = bind m (fun a => bind (k a) h) st.
Proof. unfold bind. destruct (m st) as [s [a|c]]; reflexivity. Qed.



Lemma writeToFile_whole (env : Env) (path content : bytes) (appendMode : bool) (st : St) :
  snd (mkdirAll env (filepathDir path)) = None -> openErr env path = None ->
  (forall k msg, room env path = Some (k, msg) -> (length content <= k)%nat) ->
  snd (writeToFile env path content appendMode st) = Ret None.
Proof.
  intros Hm Ho Hr. unfold writeToFile.
  destruct (mkdirAll env (filepathDir path)) as [made [msg|]]; [discriminate|]. rewrite Ho.
  destruct (room env path) as [[k msg]|]; [|reflexivity].
  specialize (Hr k msg eq_refl). destruct (k <? length content)%nat eqn:E; [|reflexivity].
  apply Nat.ltb_lt in E. lia.
Qed.

(** ** C10 *)




(** ** X8 *)


(** ** X9 *)



(** ** X10 *)

(** X10: when none of wl-copy, xclip and xsel is installed and the Record
    can be written in full, main persists the whole Record, then writes
    "Error copying to clipboard: no clipboard tool found (tried: wl-copy,
    xclip, xsel)" to stderr and exits 1; no helper is run. *)
Theorem main_no_clipboard_tool (env : Env) (config : Config) (args : list bytes) (st : St) :
  let path := targetFileOf config in
  let record := recordOf env config args in
  let st' := fst (main env config args st) in
  detectClipboardTool env = None ->
  help config = false -> showVersion config = false -> args <> [] ->
  noTemp config = false -> noClipboard config = false ->
  snd (executeCommand env args (stderr config)) = None ->
  snd (mkdirAll env (filepathDir path)) = None -> openErr env path = None ->
  (forall k msg, room env path = Some (k, msg) -> (length record <= k)%nat) ->
  snd (main env config args st) = Exit 1 /\ clipLog st' = clipLog st /\
  files st' path = Some ((if append config then priorContent st path else []) ++ record) /\
  exists pre, errout st' =
    pre ++ s2b "Error copying to clipboard: no clipboard tool found (tried: wl-copy, xclip, xsel)" ++ [nl].
Proof.
  intros path record st' Hd Hh Hv Ha Hn Hc He Hm Ho Hr.
  destruct args as [|a rest]; [contradiction|].
  subst record. unfold recordOf in *.
  destruct (executeCommand env (a :: rest) (stderr config)) as [output [e|]] eqn:Ex; [discriminate|].
  cbn [fst] in *.
  destruct (delay_step config st) as (st2 & HD & F2 & C2 & E2).
  pose proof (writeToFile_whole env path
                (recordHeader (now env) (joinSpace (a :: rest)) ++ transformOutput config output ++ [nl])
                (append config) st2 Hm Ho Hr) as Hw.
  destruct (writeToFile_cases env path
              (recordHeader (now env) (joinSpace (a :: rest)) ++ transformOutput config output ++ [nl])
              (append config) st2) as (stw & r & HW & _ & _ & Cw & _ & _ & Hcs).
  rewrite HW in Hw. cbn [snd] in Hw. injection Hw as ->.
  destruct Hcs as [(_ & Hf) | [(msg & [=] & _) | (k & msg & _ & [=] & _)]].
  subst st'. unfold main. rewrite Hh, Hv. unfold runPipeline. rewrite Ex, Hn, Hc.
  cbv beta iota zeta. cbn [negb].
  rewrite bind_assoc_st, (bind_ret_eq (ret tt) _ st st tt eq_refl). cbv beta.
  rewrite bind_assoc_st, (bind_ret_eq _ _ _ _ _ HD). cbv beta.
  rewrite !bind_assoc_st. unfold path, targetFileOf in HW. rewrite (bind_ret_eq _ _ _ _ _ HW).
  cbv beta iota.
  unfold copyToClipboard, clearClipboard. rewrite Hd.
  unfold priorContent in Hf |- *. rewrite F2 in Hf. rewrite <- C2, <- Cw.
  assert (Hmsg : s2b "Error copying to clipboard: " ++
                 errString (ErrMsg (s2b "no clipboard tool found (tried: wl-copy, xclip, xsel)")) ++
                 [nl] =
                 s2b "Error copying to clipboard: no clipboard tool found (tried: wl-copy, xclip, xsel)" ++
                 [nl]) by (vm_compute; reflexivity).
  destruct (verbose config), (clear config); cbv [bind ret print eprint osExit];
    cbv beta iota zeta; cbn [out errout files clipLog dirs fst snd];
    (split; [reflexivity|]); (split; [reflexivity|]); (split; [exact Hf|]);
    rewrite Hmsg; eexists; rewrite ?app_assoc; reflexivity.
Qed.

Lemma main_no_clipboard_tool_witness :
  let args := [s2b "echo"; s2b "hello"] in
  snd (main noToolEnv defaultConfig args emptySt) = Exit 1.
Proof.
  intros args.
  refine (proj1 (main_no_clipboard_tool noToolEnv defaultConfig args emptySt
                   eq_refl eq_refl eq_refl _ eq_refl eq_refl eq_refl eq_refl eq_refl _)).
  - discriminate.
  - intros k msg H. discriminate H.
Defined.

(** ** X13 *)

(** X13: two successful runs of main, each with its own machine, flags and
    command, that persist to the same target: the second run's Record comes
    after the first one's (and after what the first run kept) when the
    second run appends, and replaces the file otherwise. *)
Theorem main_two_runs_records (env1 env2 : Env) (c1 c2 : Config) (args1 args2 : list bytes)
    (st st1 st2 : St) :
  main env1 c1 args1 st = (st1, Ret tt) -> main env2 c2 args2 st1 = (st2, Ret tt) ->
  noTemp c1 = false -> noTemp c2 = false -> targetFileOf c2 = targetFileOf c1 ->
  files st2 (targetFileOf c1) =
    Some ((if append c2
           then (if append c1 then priorContent st (targetFileOf c1) else []) ++ recordOf env1 c1 args1
           else []) ++ recordOf env2 c2 args2).
Proof.
  intros H1 H2 Hn1 Hn2 Ht.
  pose proof (main_success_files env2 c2 args2 st1 st2 H2 Hn2) as F2.
  pose proof (main_success_files env1 c1 args1 st st1 H1 Hn1) as F1.
  rewrite Ht in F2. rewrite F2. unfold priorContent at 1. rewrite F1. reflexivity.
Qed.

Lemma main_two_runs_records_witness :
  let args := [s2b "echo"; s2b "hello"] in
  let st1 := fst (main sampleEnv defaultConfig args emptySt) in
  let st2 := fst (main silentEnv appendConfig [s2b "true"] st1) in
  files st2 defaultFile =
    Some (recordOf sampleEnv defaultConfig args ++ recordOf silentEnv appendConfig [s2b "true"]).
Proof.
  intros args st1 st2.
  assert (H1 : main sampleEnv defaultConfig args emptySt = (st1, Ret tt))
    by (subst st1; vm_compute; reflexivity).
  assert (H2 : main silentEnv appendConfig [s2b "true"] st1 = (st2, Ret tt))
    by (subst st2; vm_compute; reflexivity).
  exact (main_two_runs_records sampleEnv silentEnv defaultConfig appendConfig args [s2b "true"]
           emptySt st1 st2 H1 H2 eq_refl eq_refl eq_refl).
Defined.
